(** * JanAvlokan: explanation and audit governance, verified against the code

    A shallow embedding of
    - [src/lib/gemini.ts]: reason codes, the input sanitizers, the template
      store and [generateGeminiExplanation];
    - [src/app/api/audit/route.ts] ([POST]) with the audit panel that calls it;
    - the spike-detection route (its SQL query and the row mapping).

    JavaScript strings are sequences of UTF-16 code units.  [trim], the
    control-character filter, [includes] and [join] are defined on code units
    exactly as ECMAScript defines them.  The Unicode case mappings are a
    parameter ([Js.CaseMapping]) that is only required to agree with the ASCII
    mapping on ASCII strings, so every theorem below holds for the case mapping
    of any JavaScript engine. *)

From Stdlib Require Import List Bool Arith NArith ZArith Lia String Ascii.
From Stdlib Require Import QArith Qround Qreduction Qabs Permutation Sorted.
From Stdlib Require Import Reals Qreals Lra Psatz.
Import ListNotations.

(* ================================================================== *)
(** ** JavaScript strings *)
(* ================================================================== *)

Module Js.

Local Open Scope N_scope.

(** A string value: its UTF-16 code units. *)
Definition jsstring := list N.

(** Decoding of a UTF-8 source literal into code units (one code unit for a
    code point of the basic plane, a surrogate pair above it). *)
Definition code_units (cp : N) : jsstring :=
  if cp <? 65536 then [cp]
  else [55296 + (cp - 65536) / 1024; 56320 + (cp - 65536) mod 1024].

Definition cont (b : N) : N := b mod 64.

Fixpoint utf8_decode (fuel : nat) (bs : list N) : jsstring :=
  match fuel with
  | O => []
  | S fuel =>
    match bs with
    | [] => []
    | b :: rest =>
      if b <? 128 then b :: utf8_decode fuel rest
      else if b <? 224 then
        match rest with
        | b1 :: rest => code_units ((b mod 32) * 64 + cont b1) ++ utf8_decode fuel rest
        | _ => [65533]
        end
      else if b <? 240 then
        match rest with
        | b1 :: b2 :: rest =>
          code_units ((b mod 16) * 4096 + cont b1 * 64 + cont b2) ++ utf8_decode fuel rest
        | _ => [65533]
        end
      else
        match rest with
        | b1 :: b2 :: b3 :: rest =>
          code_units ((b mod 8) * 262144 + cont b1 * 4096 + cont b2 * 64 + cont b3)
            ++ utf8_decode fuel rest
        | _ => [65533]
        end
    end
  end.

(** [js "text"] is the string value of the source literal ['text']. *)
Definition js (s : string) : jsstring :=
  let bs := map N_of_ascii (list_ascii_of_string s) in
  utf8_decode (List.length bs) bs.
Arguments js : simpl never.

(** [===] on two strings. *)
Definition strict_eq (a b : jsstring) : bool :=
  if list_eq_dec N.eq_dec a b then true else false.

(** [Array.prototype.includes] on an array of strings. *)
Definition array_includes (l : list jsstring) (x : jsstring) : bool :=
  existsb (strict_eq x) l.

(** A string is falsy exactly when it is empty. *)
Definition truthy (s : jsstring) : bool :=
  match s with [] => false | _ => true end.

(** [a || b] on strings. *)
Definition or_else (a b : jsstring) : jsstring := if truthy a then a else b.

(** [o || b] where [o] may be [undefined] or [null]. *)
Definition opt_or_else (o : option jsstring) (b : jsstring) : jsstring :=
  match o with Some a => or_else a b | None => b end.

(** [!o] where [o] may be [undefined] or [null]. *)
Definition falsy (o : option jsstring) : bool :=
  match o with Some a => negb (truthy a) | None => true end.

(** ECMAScript WhiteSpace and LineTerminator code points: what [trim] strips
    and what [\s] matches. *)
Definition is_whitespace (c : N) : bool :=
  (c =? 9) || (c =? 10) || (c =? 11) || (c =? 12) || (c =? 13) || (c =? 32)
  || (c =? 160) || (c =? 5760) || ((8192 <=? c) && (c <=? 8202))
  || (c =? 8232) || (c =? 8233) || (c =? 8239) || (c =? 8287)
  || (c =? 12288) || (c =? 65279).

Fixpoint trimStart (s : jsstring) : jsstring :=
  match s with
  | c :: t => if is_whitespace c then trimStart t else s
  | [] => []
  end.

Definition trimEnd (s : jsstring) : jsstring := rev (trimStart (rev s)).

Definition trim (s : jsstring) : jsstring := trimEnd (trimStart s).

(** [s.replace(/[\x00-\x1f\x7f]/g, '')]. *)
Definition is_control (c : N) : bool := (c <=? 31) || (c =? 127).

Definition strip_control (s : jsstring) : jsstring :=
  filter (fun c => negb (is_control c)) s.

(** [s.replace(/\s+/g, '_')]: every maximal run of white space becomes one
    underscore. *)
Fixpoint replace_ws_runs (s : jsstring) : jsstring :=
  match s with
  | [] => []
  | c :: t =>
    if is_whitespace c then
      match t with
      | d :: _ => if is_whitespace d then replace_ws_runs t else 95 :: replace_ws_runs t
      | [] => [95]
      end
    else c :: replace_ws_runs t
  end.

(** [s.startsWith(p)] and [s.includes(sub)]. *)
Fixpoint startsWith (s p : jsstring) {struct p} : bool :=
  match p with
  | [] => true
  | a :: p' =>
    match s with
    | [] => false
    | b :: s' => (a =? b) && startsWith s' p'
    end
  end.

Fixpoint includes (s sub : jsstring) : bool :=
  startsWith s sub
  || match s with [] => false | _ :: t => includes t sub end.

(** [l.join(sep)]. *)
Fixpoint join (sep : jsstring) (l : list jsstring) : jsstring :=
  match l with
  | [] => []
  | [x] => x
  | x :: t => x ++ sep ++ join sep t
  end.

(** The case mappings on ASCII. *)
Definition upper_ascii (c : N) : N :=
  if (97 <=? c) && (c <=? 122) then c - 32 else c.

Definition lower_ascii (c : N) : N :=
  if (65 <=? c) && (c <=? 90) then c + 32 else c.

Definition is_ascii (s : jsstring) : bool := forallb (fun c => c <? 128) s.

(** [String.prototype.toUpperCase] and [toLowerCase] apply the Unicode case
    mappings, which are not per code unit in general.  The model takes them as
    given and only relies on their behaviour on ASCII strings. *)
Record CaseMapping : Type := {
  toUpperCase : jsstring -> jsstring;
  toLowerCase : jsstring -> jsstring;
  toUpperCase_ascii :
    forall s, is_ascii s = true -> toUpperCase s = map upper_ascii s;
  toLowerCase_ascii :
    forall s, is_ascii s = true -> toLowerCase s = map lower_ascii s
}.

(** The mapping that changes ASCII letters only; it agrees with every
    [CaseMapping] on ASCII strings and serves to evaluate the model. *)
Definition ascii_case : CaseMapping :=
  {| toUpperCase := map upper_ascii;
     toLowerCase := map lower_ascii;
     toUpperCase_ascii := fun s _ => eq_refl;
     toLowerCase_ascii := fun s _ => eq_refl |}.

(** What a promise settles to, or what a call returns or throws. *)
Inductive Thrown : Type :=
| Error_ (name message : jsstring)   (* an [Error] object *)
| NotAnError.                        (* any other thrown value *)

Inductive Outcome (A : Type) : Type :=
| Resolved (a : A)
| Rejected (e : Thrown).
Arguments Resolved {A} a.
Arguments Rejected {A} e.

Definition bind {A B} (m : Outcome A) (k : A -> Outcome B) : Outcome B :=
  match m with Resolved a => k a | Rejected e => Rejected e end.

(** [try { body } catch (error) { handler }]. *)
Definition try_catch {A} (body : Outcome A) (handler : Thrown -> Outcome A) : Outcome A :=
  match body with Resolved a => Resolved a | Rejected e => handler e end.

(** [error instanceof Error ? error.message : 'Unknown error occurred']. *)
Definition error_message (e : Thrown) (dflt : jsstring) : jsstring :=
  match e with
  | Error_ _ m => m
  | NotAnError => dflt
  end.

(** [error instanceof Error && error.name === 'AbortError']. *)
Definition is_abort (e : Thrown) : bool :=
  match e with
  | Error_ n _ => strict_eq n (js "AbortError")
  | NotAnError => false
  end.

End Js.

Notation "x <- m ;; k" := (Js.bind m (fun x => k))
  (at level 61, m at next level, right associativity).

(* ================================================================== *)
(** ** src/lib/gemini.ts *)
(* ================================================================== *)

Module Gemini.

Import Js.

Inductive SupportedLanguage : Type := en | hi | hinglish.

Definition DEFAULT_LANGUAGE : SupportedLanguage := en.

Definition ALLOWED_RISK_LEVELS : list jsstring :=
  [js "HIGH"; js "MEDIUM"; js "LOW"].

Definition ALLOWED_REASON_CODES : list jsstring :=
  [js "high_recent_activity"; js "multiple_dealers"; js "cross_district";
   js "high_lifetime_usage"; js "normal"].

(** [riskLevel] has the declared type [string], on which [?.] always proceeds
    and the final [|| ''] leaves the (possibly empty) string as it is; a
    [null] argument would be read as the empty string. *)
Definition sanitizeRiskLevel (U : CaseMapping) (riskLevel : jsstring) : jsstring :=
  let normalized := or_else (trim (toUpperCase U riskLevel)) [] in
  if array_includes ALLOWED_RISK_LEVELS normalized then normalized
  else js "UNKNOWN".

(** [.filter(code => code !== null)] *)
Fixpoint filter_not_null {A} (l : list (option A)) : list A :=
  match l with
  | [] => []
  | Some a :: t => a :: filter_not_null t
  | None :: t => filter_not_null t
  end.

(** The callback of [.map] in [sanitizeReasonCodes]; an element has the
    declared type [string], so every [?.] proceeds. *)
Definition clean_code (U : CaseMapping) (code : jsstring) : option jsstring :=
  let cleaned := or_else (strip_control (trim (toLowerCase U code))) [] in
  if array_includes ALLOWED_REASON_CODES cleaned then Some cleaned else None.

(** [reasonCodes] has the declared type [string[]]: the [Array.isArray] guard
    passes. *)
Definition sanitizeReasonCodes (U : CaseMapping) (reasonCodes : list jsstring)
  : list jsstring :=
  let sanitized := filter_not_null (map (clean_code U) reasonCodes) in
  if (0 <? List.length sanitized)%nat then sanitized else [js "normal"].

Record Flags : Type := {
  flag_high_recent_activity : bool;
  flag_multiple_dealers : bool;
  flag_cross_district : bool;
  flag_high_lifetime_usage : bool
}.

(** [reasons.push(code)] under [if (flag)]. *)
Definition push_if (flag : bool) (code : jsstring) (reasons : list jsstring) :=
  if flag then reasons ++ [code] else reasons.

Definition flagsToReasonCodes (flags : Flags) : list jsstring :=
  let reasons := [] in
  let reasons := push_if (flag_high_recent_activity flags) (js "high_recent_activity") reasons in
  let reasons := push_if (flag_multiple_dealers flags) (js "multiple_dealers") reasons in
  let reasons := push_if (flag_cross_district flags) (js "cross_district") reasons in
  let reasons := push_if (flag_high_lifetime_usage flags) (js "high_lifetime_usage") reasons in
  let reasons := push_if (List.length reasons =? 0)%nat (js "normal") reasons in
  reasons.

(** One language's table of [REASON_TEMPLATES]: its own properties, in source
    order. *)
Definition Templates := list (jsstring * jsstring).

Definition REASON_TEMPLATES (language : SupportedLanguage) : Templates :=
  match language with
  | en =>
    [ (js "high_recent_activity",
       js "Unusually high number of LPG refills detected in the last 30 days");
      (js "multiple_dealers",
       js "Refills recorded from multiple dealers in short time period");
      (js "cross_district",
       js "LPG refills detected across different districts");
      (js "high_lifetime_usage",
       js "Higher-than-expected lifetime refill count compared to regional norms");
      (js "normal",
       js "Refill behavior aligns with historical and regional norms") ]
  | hi =>
    [ (js "high_recent_activity",
       js "पिछले 30 दिनों में असामान्य रूप से अधिक एलपीजी रिफिल पाए गए");
      (js "multiple_dealers",
       js "कम समय में एकाधिक डीलरों से रिफिल दर्ज किए गए");
      (js "cross_district",
       js "विभिन्न जिलों से एलपीजी रिफिल पाए गए");
      (js "high_lifetime_usage",
       js "क्षेत्रीय मानकों की तुलना में अपेक्षा से अधिक जीवनकाल रिफिल संख्या");
      (js "normal",
       js "रिफिल व्यवहार ऐतिहासिक और क्षेत्रीय मानकों के अनुरूप है") ]
  | hinglish =>
    [ (js "high_recent_activity",
       js "Pichhle 30 dinon mein unusually zyada LPG refills detect hui hain");
      (js "multiple_dealers",
       js "Multiple dealers se short time mein refills recorded hain");
      (js "cross_district",
       js "Alag-alag districts se LPG refills detect hui hain");
      (js "high_lifetime_usage",
       js "Regional norms ki tulna mein lifetime refill count zyada hai");
      (js "normal",
       js "Refill behavior historical aur regional norms ke according hai") ]
  end.

(** [templates[code]] on the table's own properties ([undefined] otherwise). *)
Fixpoint get (templates : Templates) (code : jsstring) : option jsstring :=
  match templates with
  | [] => None
  | (k, v) :: t => if strict_eq k code then Some v else get t code
  end.

(** [templates[code] || templates.normal], the template-store lookup, where
    [templates] is [REASON_TEMPLATES[language]]: every [SupportedLanguage] has
    its table, so the default after [||] is never taken. *)
Definition template_lookup (language : SupportedLanguage) (code : jsstring) : jsstring :=
  let templates := REASON_TEMPLATES language in
  opt_or_else (get templates code) (opt_or_else (get templates (js "normal")) []).

Definition getStaticExplanations (reasonCodes : list jsstring)
  (language : SupportedLanguage) : list jsstring :=
  map (template_lookup language) reasonCodes.

(** *** generateGeminiExplanation *)

Definition GEMINI_API_URL : jsstring :=
  js "https://generativelanguage.googleapis.com/v1/models/gemini-3-flash".

(** What [fetch] is called with: the URL, the key header and the prompt that
    the JSON body carries as [contents[0].parts[0].text]. *)
Record Request : Type := {
  url : jsstring;
  x_goog_api_key : jsstring;
  text : jsstring;
  maxOutputTokens : N
}.

(** [data.candidates?.[0]?.content?.parts?.[0]?.text] of the parsed body. *)
Inductive TextField : Type :=
| NoText                       (* the chain stops at a nullish link, or the text is a falsy non-string *)
| TextString (s : jsstring)    (* a string *)
| TextOther.                   (* a truthy value that is not a string *)

Inductive Json : Type :=
| DataNullish                  (* the body is [null]: reading [data.candidates] throws *)
| Data (t : TextField).

Record Response : Type := {
  ok : bool;
  status : N;
  json : Outcome Json          (* [await response.json()] *)
}.

(** The value of [explanation]. *)
Inductive Explanation : Type :=
| EString (s : jsstring)
| EOther.

Definition read_text (data : Json) : Outcome Explanation :=
  match data with
  | DataNullish => Rejected (Error_ (js "TypeError") (js "Cannot read properties of null"))
  | Data NoText => Resolved (EString [])
  | Data (TextString s) => Resolved (EString (or_else s []))
  | Data TextOther => Resolved EOther
  end.

Definition blockedWords : list jsstring :=
  [js "fraud"; js "intent"; js "prediction"; js "suspicious"; js "criminal";
   js "illegal"; js "model thinks"].

Definition not_a_function : Thrown :=
  Error_ (js "TypeError") (js "explanation.toLowerCase is not a function").

(** [blockedWords.some(word => explanation.toLowerCase().includes(word))]; the
    first call of the callback throws when [explanation] is not a string. *)
Definition hasBlockedWord (U : CaseMapping) (explanation : Explanation) : Outcome bool :=
  match explanation with
  | EString s => Resolved (existsb (fun word => includes (toLowerCase U s) word) blockedWords)
  | EOther => Rejected not_a_function
  end.

Definition languageMap (language : SupportedLanguage) : jsstring :=
  match language with
  | en => js "English (formal, administrative)"
  | hi => js "Hindi (formal, government style)"
  | hinglish => js "Hinglish (simple Hindi + English mix)"
  end.

Definition nl : jsstring := [10%N].

Definition quoted (s : jsstring) : jsstring := [34%N] ++ s ++ [34%N].

Definition build_prompt (safeRiskLevel : jsstring) (safeReasonCodes : list jsstring)
  (language : SupportedLanguage) : jsstring :=
  join nl
    [ js "You are generating explanations for a government audit dashboard.";
      [];
      js "Rules:";
      js "- Do NOT add new reasons";
      js "- Do NOT infer intent or fraud";
      js "- Do NOT mention machine learning or prediction";
      js "- Do NOT use words like " ++ quoted (js "suspicious") ++ js ", "
        ++ quoted (js "fraud") ++ js ", " ++ quoted (js "illegal") ++ js ", "
        ++ quoted (js "criminal");
      js "- Use neutral, administrative language";
      [];
      js "Risk Level: " ++ safeRiskLevel;
      js "Reasons:";
      join nl (map (fun r => js "- " ++ r) safeReasonCodes);
      [];
      js "Output Language: " ++ or_else (languageMap language) (languageMap DEFAULT_LANGUAGE);
      js "Tone: Clear, non-accusatory, human-readable";
      [];
      js "Generate a brief explanation (2-3 sentences max) suitable for a government officer reviewing this case." ].

Definition build_request (GEMINI_API_KEY prompt : jsstring) : Request :=
  {| url := GEMINI_API_URL;
     x_goog_api_key := GEMINI_API_KEY;
     text := prompt;
     maxOutputTokens := 200 |}.

(** The environment of one call: the configured key and what [fetch] settles
    to for a request (a rejection named [AbortError] when the 10 s timer
    aborts it, any other rejection for a transport error). *)
Record Env : Type := {
  GEMINI_API_KEY : jsstring;
  fetch : Request -> Outcome Response
}.

(** The deterministic fallback: [getStaticExplanations(...).join('\n')]. *)
Definition static_fallback (safeReasonCodes : list jsstring)
  (language : SupportedLanguage) : jsstring :=
  join nl (getStaticExplanations safeReasonCodes language).

(** The body of the [try] block. *)
Definition call_gemini (U : CaseMapping) (env : Env) (prompt : jsstring)
  (safeReasonCodes : list jsstring) (language : SupportedLanguage) : Outcome jsstring :=
  response <- fetch env (build_request (GEMINI_API_KEY env) prompt) ;;
  if negb (ok response) then
    Resolved (static_fallback safeReasonCodes language)
  else
    data <- json response ;;
    explanation <- read_text data ;;
    blocked <- hasBlockedWord U explanation ;;
    match explanation with
    | EString s =>
      if blocked || negb (truthy (trim s)) then
        Resolved (static_fallback safeReasonCodes language)
      else Resolved (trim s)
    | EOther => Rejected not_a_function
    end.

(** The promise that [generateGeminiExplanation] returns. *)
Definition generateGeminiExplanation (U : CaseMapping) (env : Env)
  (riskLevel : jsstring) (reasonCodes : list jsstring)
  (language : SupportedLanguage) : Outcome jsstring :=
  let safeRiskLevel := sanitizeRiskLevel U riskLevel in
  let safeReasonCodes := sanitizeReasonCodes U reasonCodes in
  if negb (truthy (GEMINI_API_KEY env)) then
    Resolved (static_fallback safeReasonCodes language)
  else
    let prompt := build_prompt safeRiskLevel safeReasonCodes language in
    try_catch
      (call_gemini U env prompt safeReasonCodes language)
      (fun error =>
         if is_abort error then Resolved (static_fallback safeReasonCodes language)
         else Resolved (static_fallback safeReasonCodes language)).

(** The branches in which the generator must fall back, for the request that
    a call sends: no key configured; the call rejected (the timer's abort or a
    transport error); a response that is not a success; a body that cannot be
    read or carries no usable text; text that is empty or white space only;
    text in which a blocked term occurs once lower-cased. *)
Inductive FailureBranch (U : CaseMapping) (env : Env) (request : Request) : Prop :=
| NoApiKey :
    GEMINI_API_KEY env = [] -> FailureBranch U env request
| CallRejected (e : Thrown) :
    fetch env request = Rejected e -> FailureBranch U env request
| NotOk (r : Response) :
    fetch env request = Resolved r -> ok r = false -> FailureBranch U env request
| BodyUnreadable (r : Response) (e : Thrown) :
    fetch env request = Resolved r -> json r = Rejected e ->
    FailureBranch U env request
| BodyWithoutText (r : Response) (d : Json) :
    fetch env request = Resolved r -> json r = Resolved d ->
    (forall s, d <> Data (TextString s)) ->
    FailureBranch U env request
| BlankText (r : Response) (s : jsstring) :
    fetch env request = Resolved r -> json r = Resolved (Data (TextString s)) ->
    forallb is_whitespace s = true ->
    FailureBranch U env request
| BlockedTerm (r : Response) (s word : jsstring) :
    fetch env request = Resolved r -> json r = Resolved (Data (TextString s)) ->
    In word [js "fraud"; js "intent"; js "prediction"; js "suspicious";
             js "criminal"; js "illegal"; js "model thinks"] ->
    includes (toLowerCase U s) word = true ->
    FailureBranch U env request.

(** The request that a call with these arguments sends. *)
Definition request_of (U : CaseMapping) (env : Env) (riskLevel : jsstring)
  (reasonCodes : list jsstring) (language : SupportedLanguage) : Request :=
  build_request (GEMINI_API_KEY env)
    (build_prompt (sanitizeRiskLevel U riskLevel)
       (sanitizeReasonCodes U reasonCodes) language).

End Gemini.

(* ================================================================== *)
(** ** src/app/api/audit/route.ts (POST) and the audit panel *)
(* ================================================================== *)

Module Audit.

Import Js.

(** The parsed request body.  [None] is a property that is absent or [null];
    the declared types are erased at run time, so [action] is any string. *)
Record AuditRequest : Type := {
  req_beneficiary_id : option jsstring;
  req_action : option jsstring;
  req_officer_id : option jsstring;
  req_officer_name : option jsstring;
  req_notes : option jsstring;
  req_new_status : option jsstring
}.

Record AuditEntry : Type := {
  audit_id : jsstring;
  beneficiary_id : jsstring;
  action : jsstring;
  officer_id : jsstring;
  officer_name : jsstring;
  notes : jsstring;
  previous_status : jsstring;
  new_status : jsstring;
  created_at : jsstring
}.

(** [NextResponse.json(body, { status })]. *)
Record Response : Type := {
  status : N;
  success : bool;
  error : option jsstring;
  message : option jsstring;
  audit : option AuditEntry
}.

(** One row of the status query: its [risk_level] column ([None] for NULL). *)
Definition StatusRow := option jsstring.

(** What the handler's surroundings answer during one call. *)
Record Env : Type := {
  request_json : Outcome AuditRequest;              (* [await request.json()] *)
  getBigQueryClient : Outcome unit;
  status_query : jsstring -> Outcome (list StatusRow);
                                                    (* [createQueryJob] and [getQueryResults] of the status query *)
  uuidv4 : jsstring;
  now_ISO : jsstring;                               (* [new Date().toISOString()] *)
  insert_job : AuditEntry -> Outcome unit           (* [createQueryJob] of the INSERT *)
}.

(** The rows of [audit_trail] written so far. *)
Definition Ledger := list AuditEntry.

Definition json_error (code : N) (msg : jsstring) : Response :=
  {| status := code; success := false; error := Some msg;
     message := None; audit := None |}.

Definition json_recorded (a b : jsstring) (e : AuditEntry) : Response :=
  {| status := 200; success := true; error := None;
     message := Some (js "Action '" ++ a ++ js "' recorded for beneficiary " ++ b);
     audit := Some e |}.

(** [statusRows[0]?.risk_level]. *)
Definition first_risk_level (statusRows : list StatusRow) : option jsstring :=
  match statusRows with
  | [] => None
  | r :: _ => r
  end.

(** The [try] around the INSERT: a failure is logged and swallowed. *)
Definition try_insert (env : Env) (ledger : Ledger) (auditEntry : AuditEntry) : Ledger :=
  match insert_job env auditEntry with
  | Resolved _ => ledger ++ [auditEntry]
  | Rejected _ => ledger
  end.

(** The body of the outer [try] of [POST]. *)
Definition POST_body (env : Env) (ledger : Ledger) : Outcome (Response * Ledger) :=
  body <- request_json env ;;
  if falsy (req_beneficiary_id body) || falsy (req_action body) then
    Resolved (json_error 400 (js "beneficiary_id and action are required"), ledger)
  else
    match req_beneficiary_id body, req_action body with
    | Some b, Some a =>
      _ <- getBigQueryClient env ;;
      statusRows <- status_query env b ;;
      let previousStatus := opt_or_else (first_risk_level statusRows) (js "UNKNOWN") in
      let auditEntry :=
        {| audit_id := uuidv4 env;
           beneficiary_id := b;
           action := a;
           officer_id := opt_or_else (req_officer_id body) (js "SYSTEM");
           officer_name := opt_or_else (req_officer_name body) (js "System User");
           notes := opt_or_else (req_notes body) [];
           previous_status := previousStatus;
           new_status := opt_or_else (req_new_status body) previousStatus;
           created_at := now_ISO env |} in
      let ledger' := try_insert env ledger auditEntry in
      Resolved (json_recorded a b auditEntry, ledger')
    | _, _ =>   (* excluded by the guard: an absent property is falsy *)
      Resolved (json_error 400 (js "beneficiary_id and action are required"), ledger)
    end.

(** [POST]: the response and the ledger after the call. *)
Definition POST (env : Env) (ledger : Ledger) : Response * Ledger :=
  match POST_body env ledger with
  | Resolved r => r
  | Rejected e => (json_error 500 (error_message e (js "Unknown error occurred")), ledger)
  end.

(** *** The audit panel (the caller of [POST /api/audit]) *)

Inductive AuditAction : Type := REVIEWED | FLAGGED | CLEARED | NOTE_ADDED.

Definition action_name (a : AuditAction) : jsstring :=
  match a with
  | REVIEWED => js "REVIEWED"
  | FLAGGED => js "FLAGGED"
  | CLEARED => js "CLEARED"
  | NOTE_ADDED => js "NOTE_ADDED"
  end.

Record AuditPanelProps : Type := {
  beneficiaryId : jsstring;
  riskLevel : jsstring
}.

(** The component's state that the handler reads. *)
Record PanelState : Type := {
  st_notes : jsstring;
  st_officerName : jsstring;
  st_loading : bool
}.

(** [handleAuditAction]: the body it posts, or [None] when it stops at
    [setError("Please enter your name/ID")]. *)
Definition handleAuditAction (U : CaseMapping) (props : AuditPanelProps)
  (st : PanelState) (a : AuditAction) : option AuditRequest :=
  if negb (truthy (trim (st_officerName st))) then None
  else Some
    {| req_beneficiary_id := Some (beneficiaryId props);
       req_action := Some (action_name a);
       req_officer_name := Some (trim (st_officerName st));
       req_officer_id := Some (toUpperCase U (replace_ws_runs (trim (st_officerName st))));
       req_notes := Some (trim (st_notes st));
       req_new_status :=
         Some (match a with CLEARED => js "LOW" | _ => riskLevel props end) |}.

(** The [disabled] attribute of the four action buttons. *)
Definition button_disabled (st : PanelState) (a : AuditAction) : bool :=
  match a with
  | NOTE_ADDED => st_loading st || negb (truthy (trim (st_notes st)))
  | _ => st_loading st
  end.

(** A click on an action button: nothing when the button is disabled. *)
Definition click (U : CaseMapping) (props : AuditPanelProps) (st : PanelState)
  (a : AuditAction) : option AuditRequest :=
  if button_disabled st a then None else handleAuditAction U props st a.

End Audit.

(* ================================================================== *)
(** ** The spike-detection route: its query and the row mapping *)
(* ================================================================== *)

Module Spikes.

Import Js.

Local Open Scope Q_scope.

(** A row of the CTE [district_stats]: the group key and [COUNT( * )]
    ([high_count] and [medium_count] are not read by the outer query).  The
    list order is the order in which the engine holds the rows. *)
Record DistrictStat : Type := {
  residence_district : jsstring;
  ds_anomaly_count : N
}.

(** Numbers are exact rationals: [AVG], [STDDEV], the comparisons and [ROUND]
    are read in exact arithmetic, not in FLOAT64. *)
Definition count_of (ds : DistrictStat) : Q := inject_Z (Z.of_N (ds_anomaly_count ds)).

Definition Qsum (l : list Q) : Q := fold_right Qplus 0 l.

Definition Qltb (x y : Q) : bool := negb (Qle_bool y x).

Definition size (l : list Q) : Q := inject_Z (Z.of_nat (List.length l)).

(** [AVG(x)]: NULL over no rows. *)
Definition AVG (xs : list Q) : option Q :=
  match xs with
  | [] => None
  | _ => Some (Qred (Qsum xs / size xs))
  end.

(** The square of [STDDEV(x)]: BigQuery's [STDDEV] is the sample standard
    deviation, NULL over fewer than two rows. *)
Definition VAR_SAMP (xs : list Q) : option Q :=
  match AVG xs with
  | Some m =>
    if (List.length xs <? 2)%nat then None
    else Some (Qred (Qsum (map (fun x => Qred ((x - m) * (x - m))) xs) / (size xs - 1)))
  | None => None
  end.

(** The single row of the CTE [baseline]; [std_count] is kept as its square. *)
Record Baseline : Type := {
  avg_count : option Q;
  std_count_squared : option Q
}.

Definition baseline (district_stats : list DistrictStat) : Baseline :=
  let xs := map count_of district_stats in
  {| avg_count := AVG xs; std_count_squared := VAR_SAMP xs |}.


(** [c > (SELECT avg_count + k * std_count FROM baseline)] for [0 <= k]: as
    [k * std_count] is not negative, the comparison holds exactly when
    [c - avg_count] is positive and its square exceeds [k^2 * std_count^2]
    (lemma [exceeds_real] below).  A NULL on either side makes the comparison
    NULL, which no [WHEN] or [WHERE] takes. *)
Definition exceeds (k : Q) (b : Baseline) (c : Q) : bool :=
  match avg_count b, std_count_squared b with
  | Some m, Some v => Qltb 0 (c - m) && Qltb (k * k * v) ((c - m) * (c - m))
  | _, _ => false
  end.

Inductive SpikeType : Type := CRITICAL | HIGH | MODERATE.

(** The [CASE] expression. *)
Definition spike_type_of (b : Baseline) (c : Q) : SpikeType :=
  if exceeds (5 # 2) b c then CRITICAL
  else if exceeds 2 b c then HIGH
  else MODERATE.

(** [ROUND(x, digits)]: to the nearest multiple of [10^-digits], halfway cases
    away from zero. *)
Definition round_half_away (x : Q) : Z :=
  if Qle_bool 0 x then Qfloor (x + (1 # 2)) else (- Qfloor (- x + (1 # 2)))%Z.

Definition ROUND (x : Q) (digits : nat) : Q :=
  let s := inject_Z (10 ^ Z.of_nat digits) in
  Qred (inject_Z (round_half_away (x * s)) / s).

(** [NULLIF(x, y)]. *)
Definition NULLIF (x : option Q) (y : Q) : option Q :=
  match x with
  | Some v => if Qeq_bool v y then None else Some v
  | None => None
  end.

(** [ROUND((c - avg) / NULLIF(avg, 0) * 100, 1)]. *)
Definition deviation (b : Baseline) (c : Q) : option Q :=
  match avg_count b, NULLIF (avg_count b) 0 with
  | Some m, Some d => Some (ROUND ((c - m) / d * 100) 1)
  | _, _ => None
  end.

(** [ORDER BY ds.anomaly_count DESC]: rows with equal counts keep the order
    in which the engine holds them. *)
Fixpoint insert_desc (x : DistrictStat) (l : list DistrictStat) : list DistrictStat :=
  match l with
  | [] => [x]
  | y :: t =>
    if (ds_anomaly_count y <=? ds_anomaly_count x)%N then x :: l
    else y :: insert_desc x t
  end.

Definition order_by_count_desc (l : list DistrictStat) : list DistrictStat :=
  fold_right insert_desc [] l.

(** A row of the query's result.  [row_date] is the number of days before
    [CURRENT_DATE()] that the [date] column shows: the row's [ROW_NUMBER()]
    in the same descending order. *)
Record Row : Type := {
  row_date : nat;
  row_spike_type : SpikeType;
  row_anomaly_count : N;
  row_avg_baseline : option Q;
  row_deviation_percentage : option Q;
  row_affected_districts : list jsstring
}.

Definition select (b : Baseline) (row_number : nat) (ds : DistrictStat) : Row :=
  {| row_date := row_number;
     row_spike_type := spike_type_of b (count_of ds);
     row_anomaly_count := ds_anomaly_count ds;
     row_avg_baseline := option_map (fun m => ROUND m 2) (avg_count b);
     row_deviation_percentage := deviation b (count_of ds);
     row_affected_districts := [residence_district ds] |}.

(** [WHERE ds.anomaly_count > (SELECT avg_count + 1.5 * std_count ...)]. *)
Definition where_spike (b : Baseline) (ds : DistrictStat) : bool :=
  exceeds (3 # 2) b (count_of ds).

Fixpoint number_from (n : nat) (b : Baseline) (l : list DistrictStat) : list Row :=
  match l with
  | [] => []
  | ds :: t => select b n ds :: number_from (S n) b t
  end.

(** [y] may follow [x] in the ordered rows: its count is not larger. *)
Definition follows (x y : DistrictStat) : Prop :=
  (ds_anomaly_count y <= ds_anomaly_count x)%N.

Definition LIMIT : nat := 20.

(** The query over a given [district_stats]. *)
Definition query (district_stats : list DistrictStat) : list Row :=
  let b := baseline district_stats in
  let spikes := filter (where_spike b) district_stats in
  firstn LIMIT (number_from 1 b (order_by_count_desc spikes)).

(** [Number(v)] of a column value: [Number(null)] is [0]. *)
Definition Number (v : option Q) : Q :=
  match v with Some q => q | None => 0 end.

Record TemporalSpike : Type := {
  date : nat;
  spike_type : SpikeType;
  anomaly_count : Q;
  avg_baseline : Q;
  deviation_percentage : Q;
  affected_districts : list jsstring
}.

(** The callback of [rows.map]. *)
Definition to_spike (row : Row) : TemporalSpike :=
  {| date := row_date row;
     spike_type := row_spike_type row;
     anomaly_count := Number (Some (inject_Z (Z.of_N (row_anomaly_count row))));
     avg_baseline := Number (row_avg_baseline row);
     deviation_percentage := Number (row_deviation_percentage row);
     affected_districts := row_affected_districts row |}.

Inductive Response : Type :=
| Json (results : list TemporalSpike)
| Json500 (error : jsstring).

(** What the data store answers: the client, and the rows of
    [district_stats] that the query job sees (or the job's failure). *)
Record Env : Type := {
  getBigQueryClient : Outcome unit;
  district_stats : Outcome (list DistrictStat)
}.

Definition GET (env : Env) : Response :=
  match (_ <- getBigQueryClient env ;;
         stats <- district_stats env ;;
         Resolved (map to_spike (query stats))) with
  | Resolved results => Json results
  | Rejected e => Json500 (error_message e (js "Unknown error occurred"))
  end.

End Spikes.

(* ================================================================== *)
(** ** Example inputs *)
(* ================================================================== *)

Module Examples.

Import Js.

Local Open Scope N_scope.

Section GeminiExamples.
Import Gemini.

(** The input of C5: ['HIGH_RECENT_ACTIVITY\n<script>']. *)
Definition injected_code : jsstring :=
  js "HIGH_RECENT_ACTIVITY" ++ [10%N] ++ js "<script>".

(** A service that answers in upper case with a blocked term. *)
Definition tainted_env : Env :=
  {| GEMINI_API_KEY := js "key";
     fetch := fun _ =>
       Resolved {| ok := true; status := 200;
                   json := Resolved (Data (TextString
                     (js "This beneficiary shows clear signs of FRAUD."))) |} |}.

End GeminiExamples.

Section AuditExamples.
Import Audit.

(** An example case store: the case is at HIGH, the ledger accepts rows. *)
Definition env_high (body : AuditRequest) : Env :=
  {| request_json := Resolved body;
     getBigQueryClient := Resolved tt;
     status_query := fun _ => Resolved [Some (js "HIGH")];
     uuidv4 := js "0b0e7a2c-demo";
     now_ISO := js "2025-01-01T00:00:00.000Z";
     insert_job := fun _ => Resolved tt |}.

(** [record(id, "CLEARED", "Officer A", "", undefined)]. *)
Definition cleared_no_status : AuditRequest :=
  {| req_beneficiary_id := Some (js "BEN-1");
     req_action := Some (js "CLEARED");
     req_officer_id := None;
     req_officer_name := Some (js "Officer A");
     req_notes := Some [];
     req_new_status := None |}.

(** The entry that [POST] records for [cleared_no_status] in [env_high]. *)
Definition entry_cleared_high : AuditEntry :=
  {| audit_id := js "0b0e7a2c-demo";
     beneficiary_id := js "BEN-1";
     action := js "CLEARED";
     officer_id := js "SYSTEM";
     officer_name := js "Officer A";
     notes := [];
     previous_status := js "HIGH";
     new_status := js "HIGH";
     created_at := js "2025-01-01T00:00:00.000Z" |}.

(** [record(id, "NOTE_ADDED", "", "", undefined)]: no officer name, no notes. *)
Definition note_blank : AuditRequest :=
  {| req_beneficiary_id := Some (js "BEN-1");
     req_action := Some (js "NOTE_ADDED");
     req_officer_id := None;
     req_officer_name := Some [];
     req_notes := Some [];
     req_new_status := None |}.

(** A store in which the table [audit_trail] does not exist yet. *)
Definition env_no_table (body : AuditRequest) : Env :=
  {| request_json := Resolved body;
     getBigQueryClient := Resolved tt;
     status_query := fun _ => Resolved [Some (js "MEDIUM")];
     uuidv4 := js "0b0e7a2c-demo";
     now_ISO := js "2025-01-01T00:00:00.000Z";
     insert_job := fun _ =>
       Rejected (Error_ (js "Error") (js "Not found: Table audit_trail")) |}.

End AuditExamples.

Section SpikeExamples.
Import Spikes.




(** The four groups A: 10, B: 12, C: 11, D: 100. *)
Definition four_groups : list DistrictStat :=
  [ {| residence_district := js "A"; ds_anomaly_count := 10 |};
    {| residence_district := js "B"; ds_anomaly_count := 12 |};
    {| residence_district := js "C"; ds_anomaly_count := 11 |};
    {| residence_district := js "D"; ds_anomaly_count := 100 |} ].

End SpikeExamples.

End Examples.

(* ================================================================== *)
(** ** Facts about strings *)
(* ================================================================== *)

Module JsFacts.

Import Js.

Lemma strict_eq_true (a b : jsstring) : strict_eq a b = true <-> a = b.
Proof.
  unfold strict_eq. destruct (list_eq_dec N.eq_dec a b); split; congruence.
Qed.

Lemma strict_eq_refl (a : jsstring) : strict_eq a a = true.
Proof. now apply strict_eq_true. Qed.

Lemma array_includes_In (l : list jsstring) (x : jsstring) :
  array_includes l x = true <-> In x l.
Proof.
  unfold array_includes. rewrite existsb_exists. split.
  - intros (y & Hy & E). apply strict_eq_true in E. now subst.
  - intros H. exists x. split; [assumption | apply strict_eq_refl].
Qed.

Lemma array_includes_not_In (l : list jsstring) (x : jsstring) :
  array_includes l x = false <-> ~ In x l.
Proof.
  rewrite <- array_includes_In. destruct (array_includes l x); split; congruence.
Qed.

Lemma truthy_true (s : jsstring) : truthy s = true <-> s <> [].
Proof. destruct s; simpl; split; congruence. Qed.

Lemma truthy_false (s : jsstring) : truthy s = false <-> s = [].
Proof. destruct s; simpl; split; congruence. Qed.

Lemma or_else_nil (a : jsstring) : or_else a [] = a.
Proof. now destruct a. Qed.

Lemma or_else_nonempty (a b : jsstring) : b <> [] -> or_else a b <> [].
Proof. destruct a; simpl; [trivial | discriminate]. Qed.

Lemma opt_or_else_nonempty (o : option jsstring) (b : jsstring) :
  b <> [] -> opt_or_else o b <> [].
Proof. destruct o; simpl; [apply or_else_nonempty | trivial]. Qed.

(** A join of at least one string, all of them non-empty, is not empty. *)
Lemma join_nonempty (sep : jsstring) (l : list jsstring) :
  l <> [] -> Forall (fun x => x <> []) l -> join sep l <> [].
Proof.
  destruct l as [|x t]; [congruence |].
  intros _ H. inversion H as [|? ? Hx Ht]; subst.
  destruct t; simpl.
  - assumption.
  - destruct x; [congruence | discriminate].
Qed.

(** No control character is left by [strip_control], and what [trimStart]
    returns does not begin with white space. *)
Lemma strip_control_clean (s : jsstring) :
  Forall (fun c => is_control c = false) (strip_control s).
Proof.
  apply Forall_forall. intros c H. apply filter_In in H.
  destruct H as [_ H]. now apply negb_true_iff.
Qed.

Lemma trimStart_head (s : jsstring) (c : N) (t : jsstring) :
  trimStart s = c :: t -> is_whitespace c = false.
Proof.
  induction s as [|d u IH]; simpl; [discriminate |].
  destruct (is_whitespace d) eqn:D; [exact IH | congruence].
Qed.

(** [trim] leaves nothing of a string of white space, and only of such a
    string. *)
Lemma trimStart_blank (s : jsstring) :
  trimStart s = [] <-> forallb is_whitespace s = true.
Proof.
  induction s as [|c t IH]; simpl.
  - tauto.
  - destruct (is_whitespace c); simpl.
    + exact IH.
    + split; discriminate.
Qed.

Lemma trim_blank (s : jsstring) :
  trim s = [] <-> forallb is_whitespace s = true.
Proof.
  unfold trim, trimEnd. rewrite <- trimStart_blank. split.
  - intros H. apply (f_equal (@rev N)) in H. rewrite rev_involutive in H.
    simpl in H. induction (trimStart s) as [|c t IH] eqn:E.
    + reflexivity.
    + exfalso.
      assert (W : is_whitespace c = false) by (eapply trimStart_head; eassumption).
      assert (L : forall u, trimStart (u ++ [c]) <> []).
      { intros u. induction u as [|d u IHu]; simpl.
        - rewrite W. discriminate.
        - destruct (is_whitespace d); [assumption | discriminate]. }
      apply (L (rev t)). simpl in H. exact H.
  - intros ->. reflexivity.
Qed.

(** [startsWith] and [includes] find a prefix and a substring. *)
Lemma startsWith_spec (s p : jsstring) :
  startsWith s p = true <-> exists r, s = p ++ r.
Proof.
  revert s. induction p as [|a p IH]; intros s; simpl.
  - split; [intros _; now exists s | reflexivity].
  - destruct s as [|b s].
    + split; [discriminate | intros (r & E); discriminate].
    + rewrite andb_true_iff, N.eqb_eq, IH. split.
      * intros (-> & r & ->). now exists r.
      * intros (r & E). injection E as -> ->. split; [reflexivity | now exists r].
Qed.

Lemma includes_spec (s sub : jsstring) :
  includes s sub = true <-> exists l r, s = l ++ sub ++ r.
Proof.
  induction s as [|c t IH].
  - simpl. rewrite orb_false_r, startsWith_spec. split.
    + intros (r & E). now exists [], r.
    + intros (l & r & E). destruct l; [now exists r |]. discriminate.
  - cbn [includes]. rewrite orb_true_iff, startsWith_spec, IH. split.
    + intros [(r & E) | (l & r & E)].
      * now exists [], r.
      * exists (c :: l), r. now rewrite E.
    + intros (l & r & E). destruct l as [|d l].
      * left. now exists r.
      * right. injection E as -> ->. now exists l, r.
Qed.

(** On ASCII input every case mapping is the ASCII one. *)
Lemma toUpperCase_js (U : CaseMapping) (s : jsstring) :
  is_ascii s = true -> toUpperCase U s = map upper_ascii s.
Proof. apply toUpperCase_ascii. Qed.

Lemma toLowerCase_js (U : CaseMapping) (s : jsstring) :
  is_ascii s = true -> toLowerCase U s = map lower_ascii s.
Proof. apply toLowerCase_ascii. Qed.

End JsFacts.

(* ================================================================== *)
(** ** Reason codes and the input sanitizers *)
(* ================================================================== *)

Module GeminiFacts.

Import Js JsFacts Gemini Examples.

(** C4. For each of the sixteen flag combinations the derived list is not
    empty; it is [["normal"]] exactly when no flag is set; ["normal"] never
    stands beside another code; each code is present exactly when its flag is
    set; and the codes come in the fixed order activity, dealers, district,
    lifetime. *)
Theorem flagsToReasonCodes_spec :
  forall flags : Flags,
  flagsToReasonCodes flags <> []
  /\ (flagsToReasonCodes flags = [js "normal"]
      <-> flag_high_recent_activity flags = false
          /\ flag_multiple_dealers flags = false
          /\ flag_cross_district flags = false
          /\ flag_high_lifetime_usage flags = false)
  /\ (In (js "normal") (flagsToReasonCodes flags)
      -> flagsToReasonCodes flags = [js "normal"])
  /\ (In (js "high_recent_activity") (flagsToReasonCodes flags)
      <-> flag_high_recent_activity flags = true)
  /\ (In (js "multiple_dealers") (flagsToReasonCodes flags)
      <-> flag_multiple_dealers flags = true)
  /\ (In (js "cross_district") (flagsToReasonCodes flags)
      <-> flag_cross_district flags = true)
  /\ (In (js "high_lifetime_usage") (flagsToReasonCodes flags)
      <-> flag_high_lifetime_usage flags = true)
  /\ (flagsToReasonCodes flags <> [js "normal"] ->
      flagsToReasonCodes flags =
        (if flag_high_recent_activity flags then [js "high_recent_activity"] else [])
        ++ (if flag_multiple_dealers flags then [js "multiple_dealers"] else [])
        ++ (if flag_cross_district flags then [js "cross_district"] else [])
        ++ (if flag_high_lifetime_usage flags then [js "high_lifetime_usage"] else [])).
Proof.
  intros [a b c d].
  destruct a, b, c, d; vm_compute;
    repeat split; intros; try discriminate; try reflexivity;
    repeat match goal with
           | H : _ \/ _ |- _ => destruct H
           | H : _ /\ _ |- _ => destruct H
           | H : False |- _ => destruct H
           end;
    try discriminate; try reflexivity; try congruence; auto 8.
Qed.

(** The five allowlisted codes, written out. *)
Lemma allowed_reason_codes (c : jsstring) :
  array_includes ALLOWED_REASON_CODES c = true <->
  In c [js "high_recent_activity"; js "multiple_dealers"; js "cross_district";
        js "high_lifetime_usage"; js "normal"].
Proof. apply array_includes_In. Qed.

Section Sanitizers.

(** The case mappings of the engine that runs the code. *)
Variable U : CaseMapping.

Lemma clean_code_Some (code c : jsstring) :
  clean_code U code = Some c <->
  c = strip_control (trim (toLowerCase U code)) /\ In c ALLOWED_REASON_CODES.
Proof.
  unfold clean_code. rewrite or_else_nil.
  destruct (array_includes ALLOWED_REASON_CODES _) eqn:E.
  - apply array_includes_In in E. split.
    + intros [= <-]. now split.
    + intros [-> _]. reflexivity.
  - apply array_includes_not_In in E. split.
    + discriminate.
    + intros [-> H]. contradiction.
Qed.

(** Mapping to [null] and filtering the [null]s out is a filter followed by
    the cleaning. *)
Lemma filter_not_null_clean (codes : list jsstring) :
  filter_not_null (map (clean_code U) codes) =
  map (fun code => strip_control (trim (toLowerCase U code)))
    (filter (fun code =>
               array_includes ALLOWED_REASON_CODES
                 (strip_control (trim (toLowerCase U code)))) codes).
Proof.
  induction codes as [|code t IH]; [reflexivity |].
  cbn [map filter filter_not_null].
  unfold clean_code at 1. rewrite or_else_nil.
  destruct (array_includes ALLOWED_REASON_CODES _); cbn [map]; now rewrite IH.
Qed.

Lemma filter_not_null_allowed (codes : list jsstring) :
  Forall (fun c => In c ALLOWED_REASON_CODES)
    (filter_not_null (map (clean_code U) codes)).
Proof.
  induction codes as [|code t IH]; simpl; [constructor |].
  destruct (clean_code U code) as [c|] eqn:E; [| assumption].
  constructor; [| assumption]. now apply clean_code_Some in E.
Qed.

Lemma sanitizeReasonCodes_nonempty (codes : list jsstring) :
  sanitizeReasonCodes U codes <> [].
Proof.
  unfold sanitizeReasonCodes.
  destruct (filter_not_null (map (clean_code U) codes)); simpl; discriminate.
Qed.

Lemma sanitizeReasonCodes_allowed (codes : list jsstring) :
  Forall (fun c => In c ALLOWED_REASON_CODES) (sanitizeReasonCodes U codes).
Proof.
  unfold sanitizeReasonCodes.
  pose proof (filter_not_null_allowed codes) as H.
  destruct (filter_not_null (map (clean_code U) codes)); simpl.
  - constructor; [| constructor]. vm_compute. tauto.
  - assumption.
Qed.

(** C6. For every list of strings the result is not empty and holds
    allowlisted codes only; it is the list of the cleaned elements that
    validate, in their order (an element that fails is dropped, nothing is put
    in its place); and when none validates, as for the empty list and for
    [["totally_invalid"]], it is [["normal"]]. *)
Theorem sanitizeReasonCodes_spec :
  forall codes : list jsstring,
  sanitizeReasonCodes U codes <> []
  /\ Forall (fun c => In c [js "high_recent_activity"; js "multiple_dealers";
                           js "cross_district"; js "high_lifetime_usage";
                           js "normal"])
       (sanitizeReasonCodes U codes)
  /\ sanitizeReasonCodes U codes =
       match
         map (fun code => strip_control (trim (toLowerCase U code)))
           (filter (fun code =>
                      array_includes ALLOWED_REASON_CODES
                        (strip_control (trim (toLowerCase U code)))) codes)
       with
       | [] => [js "normal"]
       | survivors => survivors
       end
  /\ sanitizeReasonCodes U [] = [js "normal"]
  /\ sanitizeReasonCodes U [js "totally_invalid"] = [js "normal"].
Proof.
  intros codes. split; [apply sanitizeReasonCodes_nonempty |].
  split; [apply sanitizeReasonCodes_allowed |].
  split; [| split].
  - unfold sanitizeReasonCodes. rewrite filter_not_null_clean.
    now destruct (map _ _).
  - reflexivity.
  - unfold sanitizeReasonCodes, clean_code. simpl map.
    rewrite (toLowerCase_js U) by reflexivity. reflexivity.
Qed.

(** C5, amended. The line feed is stripped and the case folded, which leaves
    ["high_recent_activity<script>"]; that is no allowlisted code, so the
    element is dropped whole and the result is the default [["normal"]]. *)
Theorem sanitizeReasonCodes_injected :
  strip_control (trim (toLowerCase U injected_code)) = js "high_recent_activity<script>"
  /\ sanitizeReasonCodes U [injected_code] = [js "normal"].
Proof.
  assert (E : toLowerCase U injected_code = map lower_ascii injected_code)
    by (apply toLowerCase_js; reflexivity).
  split.
  - rewrite E. reflexivity.
  - unfold sanitizeReasonCodes, clean_code. simpl map. rewrite E. reflexivity.
Qed.

(** C7. The input is upper-cased and trimmed; the result is that normalized
    value when it is HIGH, MEDIUM or LOW and ["UNKNOWN"] otherwise. *)
Theorem sanitizeRiskLevel_spec :
  forall riskLevel : jsstring,
  (In (trim (toUpperCase U riskLevel)) [js "HIGH"; js "MEDIUM"; js "LOW"]
   -> sanitizeRiskLevel U riskLevel = trim (toUpperCase U riskLevel))
  /\ (~ In (trim (toUpperCase U riskLevel)) [js "HIGH"; js "MEDIUM"; js "LOW"]
      -> sanitizeRiskLevel U riskLevel = js "UNKNOWN")
  /\ sanitizeRiskLevel U (js "high") = js "HIGH"
  /\ sanitizeRiskLevel U (js "High ") = js "HIGH"
  /\ sanitizeRiskLevel U (js " HIGH") = js "HIGH"
  /\ sanitizeRiskLevel U (js "'; DROP TABLE--") = js "UNKNOWN".
Proof.
  intros riskLevel. unfold sanitizeRiskLevel. rewrite or_else_nil.
  split; [| split].
  - intros H. apply (array_includes_In ALLOWED_RISK_LEVELS) in H. now rewrite H.
  - intros H. apply (array_includes_not_In ALLOWED_RISK_LEVELS) in H. now rewrite H.
  - repeat split; rewrite or_else_nil, (toUpperCase_js U) by reflexivity;
      reflexivity.
Qed.

Lemma sanitizeRiskLevel_closed (riskLevel : jsstring) :
  In (sanitizeRiskLevel U riskLevel) [js "HIGH"; js "MEDIUM"; js "LOW"; js "UNKNOWN"].
Proof.
  unfold sanitizeRiskLevel. rewrite or_else_nil.
  destruct (array_includes ALLOWED_RISK_LEVELS _) eqn:E.
  - apply array_includes_In in E. simpl in *. tauto.
  - simpl. tauto.
Qed.

End Sanitizers.

(** C5, as stated, fails: the result is not [["high_recent_activity"]]. *)
Lemma sanitizeReasonCodes_injected_not_activity :
  sanitizeReasonCodes ascii_case [injected_code] <> [js "high_recent_activity"].
Proof. vm_compute. discriminate. Qed.

End GeminiFacts.

(* ================================================================== *)
(** ** generateGeminiExplanation *)
(* ================================================================== *)

Module GeneratorFacts.

Import Js JsFacts Gemini GeminiFacts Examples.

(** Every template of every language is a non-empty string, so a lookup
    never yields the empty string. *)
Lemma template_lookup_nonempty (language : SupportedLanguage) (code : jsstring) :
  template_lookup language code <> [].
Proof.
  unfold template_lookup. apply opt_or_else_nonempty.
  destruct language; vm_compute; discriminate.
Qed.

Lemma static_fallback_nonempty (codes : list jsstring) (language : SupportedLanguage) :
  codes <> [] -> static_fallback codes language <> [].
Proof.
  intros H. unfold static_fallback, getStaticExplanations.
  apply join_nonempty.
  - destruct codes; [congruence | discriminate].
  - apply Forall_map, Forall_forall. intros c _. apply template_lookup_nonempty.
Qed.

Section Generator.

(** The case mappings of the engine, and the environment of the call. *)
Variable U : CaseMapping.
Variable env : Env.

Lemma hasBlockedWord_true (s word : jsstring) :
  In word blockedWords -> includes (toLowerCase U s) word = true ->
  hasBlockedWord U (EString s) = Resolved true.
Proof.
  intros Hw Hi. unfold hasBlockedWord. f_equal.
  apply existsb_exists. now exists word.
Qed.

(** Two hypotheses that name the response of the same call name the same
    response (and the same text). *)
Ltac same_call :=
  repeat match goal with
         | H1 : ?f = Resolved ?x, H2 : ?f = Resolved ?y |- _ =>
           first [ is_var x | is_var y ];
           assert (x = y) by congruence; subst; clear H2
         end.

(** The [try] block settles to the fallback, throws, or settles to the
    trimmed text of the service, which then is clean and not blank. *)
Lemma try_block_cases prompt codes language :
  call_gemini U env prompt codes language = Resolved (static_fallback codes language)
  \/ (exists e, call_gemini U env prompt codes language = Rejected e)
  \/ (exists r t,
        fetch env (build_request (GEMINI_API_KEY env) prompt) = Resolved r
        /\ ok r = true
        /\ json r = Resolved (Data (TextString t))
        /\ existsb (fun word => includes (toLowerCase U t) word) blockedWords = false
        /\ trim t <> []
        /\ call_gemini U env prompt codes language = Resolved (trim t)).
Proof.
  unfold call_gemini.
  destruct (fetch env _) as [r|e] eqn:F; cbn [bind]; [| right; left; now exists e].
  destruct (ok r) eqn:O; cbn [negb]; [| now left].
  destruct (json r) as [d|e] eqn:J; cbn [bind]; [| right; left; now exists e].
  destruct d as [|[ | t | ]]; cbn [read_text bind hasBlockedWord].
  - right; left. eexists. reflexivity.
  - rewrite orb_true_r. now left.
  - rewrite or_else_nil.
    destruct (existsb _ blockedWords) eqn:B; cbn [orb]; [now left |].
    destruct (truthy (trim t)) eqn:T; cbn [negb]; [| now left].
    right; right. exists r, t. apply truthy_true in T. auto 10.
  - right; left. eexists. reflexivity.
Qed.

(** C3. For every case mapping, environment and arguments the promise
    resolves, to a non-empty string; and in every failure branch (no key, a
    rejected call such as the timer's abort or a transport error, a
    non-success response, an unreadable or text-less body, blank text, text
    that contains a blocked term once lower-cased) the string is the
    line-feed join of the template lookups of the sanitized codes in the
    requested language. *)
Theorem generateGeminiExplanation_resolves :
  forall (riskLevel : jsstring) (reasonCodes : list jsstring)
         (language : SupportedLanguage),
  exists s : jsstring,
    generateGeminiExplanation U env riskLevel reasonCodes language = Resolved s
    /\ s <> []
    /\ (FailureBranch U env (request_of U env riskLevel reasonCodes language) ->
        s = join [10%N]
              (map (template_lookup language) (sanitizeReasonCodes U reasonCodes))).
Proof.
  intros riskLevel reasonCodes language.
  pose proof (static_fallback_nonempty _ language
                (sanitizeReasonCodes_nonempty U reasonCodes)) as NE.
  unfold generateGeminiExplanation, request_of.
  set (codes := sanitizeReasonCodes U reasonCodes) in *.
  set (prompt := build_prompt _ codes language).
  change (join [10%N] (map (template_lookup language) codes))
    with (static_fallback codes language).
  destruct (truthy (GEMINI_API_KEY env)) eqn:K; cbn [negb].
  2: { exists (static_fallback codes language). auto. }
  destruct (try_block_cases prompt codes language)
    as [-> | [(e & ->) | (r & t & F & O & J & B & T & ->)]].
  - exists (static_fallback codes language). auto.
  - exists (static_fallback codes language).
    split; [cbn; now destruct (is_abort e) | auto].
  - exists (trim t). split; [reflexivity |]. split; [assumption |].
    intros Fail. exfalso.
    destruct Fail as [Hk | e He | r' Hr Ho | r' e Hr Hj | r' d Hr Hj Hd
                     | r' s Hr Hj Hs | r' s w Hr Hj Hw Hi].
    + rewrite Hk in K. discriminate.
    + congruence.
    + same_call. congruence.
    + same_call. congruence.
    + same_call. apply (Hd t). congruence.
    + same_call. assert (s = t) by congruence. subst.
      apply trim_blank in Hs. contradiction.
    + same_call. assert (s = t) by congruence. subst.
      assert (existsb (fun word => includes (toLowerCase U t) word) blockedWords = true)
        by (apply existsb_exists; now exists w).
      congruence.
Qed.

(** Outside the failure branches the trimmed text of the service is what the
    promise resolves to: the model does not fall back everywhere. *)
Lemma generateGeminiExplanation_polished riskLevel reasonCodes language r t :
  GEMINI_API_KEY env <> [] ->
  fetch env (request_of U env riskLevel reasonCodes language) = Resolved r ->
  ok r = true ->
  json r = Resolved (Data (TextString t)) ->
  existsb (fun word => includes (toLowerCase U t) word) blockedWords = false ->
  trim t <> [] ->
  generateGeminiExplanation U env riskLevel reasonCodes language = Resolved (trim t).
Proof.
  intros K F O J B T. unfold generateGeminiExplanation, request_of in *.
  apply truthy_true in K. rewrite K. cbn [negb].
  unfold call_gemini. rewrite F. cbn [bind]. rewrite O. cbn [negb].
  rewrite J. cbn [bind read_text hasBlockedWord].
  rewrite or_else_nil, B. cbn [orb].
  apply truthy_true in T. now rewrite T.
Qed.

End Generator.

(** A service that answers in upper case with a blocked term is not heard. *)
Example tainted_text_is_replaced :
  generateGeminiExplanation ascii_case tainted_env (js "HIGH")
    [js "multiple_dealers"; js "cross_district"] en
  = Resolved (js "Refills recorded from multiple dealers in short time period"
              ++ [10%N] ++ js "LPG refills detected across different districts").
Proof. vm_compute. reflexivity. Qed.

End GeneratorFacts.

(* ================================================================== *)
(** ** The audit route and the audit panel *)
(* ================================================================== *)

Module AuditFacts.

Import Js JsFacts Audit Examples.

Local Open Scope N_scope.

(** The entry that [POST] builds from a body with identifier [b], action [a]
    and the rows of the status query. *)
Lemma POST_recorded env ledger body b a rows :
  request_json env = Resolved body ->
  req_beneficiary_id body = Some b -> b <> [] ->
  req_action body = Some a -> a <> [] ->
  getBigQueryClient env = Resolved tt ->
  status_query env b = Resolved rows ->
  let previousStatus := opt_or_else (first_risk_level rows) (js "UNKNOWN") in
  let e := {| audit_id := uuidv4 env;
              beneficiary_id := b;
              action := a;
              officer_id := opt_or_else (req_officer_id body) (js "SYSTEM");
              officer_name := opt_or_else (req_officer_name body) (js "System User");
              notes := opt_or_else (req_notes body) [];
              previous_status := previousStatus;
              new_status := opt_or_else (req_new_status body) previousStatus;
              created_at := now_ISO env |} in
  POST env ledger = (json_recorded a b e, try_insert env ledger e).
Proof.
  intros Hj Hb Hb' Ha Ha' Hc Hs. cbv zeta.
  unfold POST, POST_body. rewrite Hj. cbn [bind]. rewrite Hb, Ha.
  apply truthy_true in Hb', Ha'. cbn [falsy]. rewrite Hb', Ha'. cbn [negb orb].
  rewrite Hc. cbn [bind]. rewrite Hs. reflexivity.
Qed.

(** A response that carries an entry comes from the recording path. *)
Lemma POST_audit_inv env ledger e :
  audit (fst (POST env ledger)) = Some e ->
  exists body b a rows,
    request_json env = Resolved body
    /\ req_beneficiary_id body = Some b /\ b <> []
    /\ req_action body = Some a /\ a <> []
    /\ getBigQueryClient env = Resolved tt
    /\ status_query env b = Resolved rows
    /\ POST env ledger = (json_recorded a b e, try_insert env ledger e)
    /\ beneficiary_id e = b /\ action e = a
    /\ officer_name e = opt_or_else (req_officer_name body) (js "System User")
    /\ notes e = opt_or_else (req_notes body) []
    /\ previous_status e = opt_or_else (first_risk_level rows) (js "UNKNOWN")
    /\ new_status e = opt_or_else (req_new_status body) (previous_status e).
Proof.
  unfold POST, POST_body.
  destruct (request_json env) as [body|x] eqn:Hj; cbn [bind]; [| discriminate].
  destruct (req_beneficiary_id body) as [b|] eqn:Hb; cbn [falsy orb]; [| discriminate].
  destruct (req_action body) as [a|] eqn:Ha; cbn [falsy].
  2: { rewrite orb_true_r. discriminate. }
  destruct (truthy b) eqn:Tb; cbn [negb orb]; [| discriminate].
  destruct (truthy a) eqn:Ta; cbn [negb]; [| discriminate].
  destruct (getBigQueryClient env) as [[]|x] eqn:Hc; cbn [bind]; [| discriminate].
  destruct (status_query env b) as [rows|x] eqn:Hs; cbn [bind]; [| discriminate].
  cbn [fst json_recorded audit]. intros [= <-].
  exists body, b, a, rows. apply truthy_true in Tb, Ta.
  repeat (split; [first [assumption | reflexivity] |]). reflexivity.
Qed.

(** A request without identifier or action is answered 400 and leaves the
    ledger as it was. *)
Lemma POST_rejected env ledger body :
  request_json env = Resolved body ->
  falsy (req_beneficiary_id body) || falsy (req_action body) = true ->
  POST env ledger =
    (json_error 400 (js "beneficiary_id and action are required"), ledger).
Proof.
  intros Hj H. unfold POST, POST_body. rewrite Hj. cbn [bind]. now rewrite H.
Qed.

Lemma not_falsy (o : option jsstring) :
  falsy o = false -> exists s, o = Some s /\ s <> [].
Proof.
  destruct o as [s|]; cbn; [| discriminate].
  intros H. exists s. split; [reflexivity |].
  apply truthy_true. now destruct (truthy s).
Qed.

(** The panel sends LOW with every CLEARED action. *)
Lemma click_cleared_sends_low U props st body :
  click U props st CLEARED = Some body -> req_new_status body = Some (js "LOW").
Proof.
  unfold click, handleAuditAction.
  destruct (button_disabled st CLEARED); [discriminate |].
  destruct (negb (truthy (trim (st_officerName st)))); [discriminate |].
  now intros [= <-].
Qed.

(** C1, as stated, fails: a CLEARED action without a new status on a case at
    HIGH is recorded with the new status HIGH. *)
Lemma POST_cleared_stays_high :
  exists e,
    audit (fst (POST (env_high cleared_no_status) [])) = Some e
    /\ action e = js "CLEARED"
    /\ previous_status e = js "HIGH"
    /\ new_status e = js "HIGH"
    /\ new_status e <> js "LOW".
Proof.
  eexists. vm_compute. repeat split. discriminate.
Qed.

(** C1, amended. For a recorded CLEARED action, without a caller-supplied new
    status the new status is the previous status (the status read for the
    case, UNKNOWN when there is none); it is LOW, whatever the previous
    status, when the caller supplies LOW, which the audit panel does for
    every CLEARED action. *)
Theorem POST_cleared_new_status :
  forall (env : Env) (ledger : Ledger) (body : AuditRequest) (e : AuditEntry),
  request_json env = Resolved body ->
  req_action body = Some (js "CLEARED") ->
  audit (fst (POST env ledger)) = Some e ->
  (falsy (req_new_status body) = true ->
     new_status e = previous_status e
     /\ exists rows, status_query env (beneficiary_id e) = Resolved rows
        /\ previous_status e = opt_or_else (first_risk_level rows) (js "UNKNOWN"))
  /\ (req_new_status body = Some (js "LOW") -> new_status e = js "LOW")
  /\ (forall U props st, click U props st CLEARED = Some body ->
        new_status e = js "LOW").
Proof.
  intros env ledger body e Hj Ha He.
  destruct (POST_audit_inv _ _ _ He)
    as (body' & b & a & rows & Hj' & Hb & _ & _ & _ & _ & Hs & HP & Hid & _ & _ & _ & Hp & Hn).
  assert (body' = body) by congruence. subst body'.
  split; [| split].
  - intros F. split.
    + rewrite Hn. destruct (req_new_status body) as [s|]; [| reflexivity].
      cbn [falsy] in F. cbn [opt_or_else]. unfold or_else.
      destruct (truthy s); [discriminate | reflexivity].
    + exists rows. now rewrite Hid.
  - intros L. rewrite Hn, L. reflexivity.
  - intros U props st C. apply click_cleared_sends_low in C.
    rewrite Hn, C. reflexivity.
Qed.

Lemma POST_cleared_new_status_witness :
  new_status entry_cleared_high = previous_status entry_cleared_high.
Proof.
  apply (POST_cleared_new_status (env_high cleared_no_status) []
           cleared_no_status entry_cleared_high);
    reflexivity.
Defined.

(** C2, as stated, fails: a NOTE_ADDED request with a blank officer name and
    blank notes is answered with success, and its entry is written. *)
Lemma POST_blank_officer_and_notes_recorded :
  exists e,
    POST (env_high note_blank) [] =
      ({| status := 200; success := true; error := None;
          message := Some (js "Action 'NOTE_ADDED' recorded for beneficiary BEN-1");
          audit := Some e |}, [e])
    /\ action e = js "NOTE_ADDED"
    /\ officer_name e = js "System User"
    /\ notes e = [].
Proof.
  eexists. vm_compute. repeat split.
Qed.

(** With identifier and action present the answer is 200 or 500, never 400. *)
Lemma POST_not_client_error env ledger body :
  request_json env = Resolved body ->
  falsy (req_beneficiary_id body) || falsy (req_action body) = false ->
  status (fst (POST env ledger)) <> 400.
Proof.
  intros Hj F. unfold POST, POST_body. rewrite Hj. cbn [bind]. rewrite F.
  apply orb_false_iff in F. destruct F as [Fb Fa].
  apply not_falsy in Fb, Fa.
  destruct Fb as (b & -> & _), Fa as (a & -> & _).
  destruct (getBigQueryClient env) as [[]|x]; cbn [bind]; [| discriminate].
  destruct (status_query env b) as [rows|x]; cbn [bind]; discriminate.
Qed.

Lemma POST_status env ledger :
  status (fst (POST env ledger)) = 400
  \/ status (fst (POST env ledger)) = 500
  \/ status (fst (POST env ledger)) = 200.
Proof.
  unfold POST, POST_body.
  destruct (request_json env) as [body|x]; cbn [bind]; [| now right; left].
  destruct (falsy (req_beneficiary_id body) || falsy (req_action body));
    [now left |].
  destruct (req_beneficiary_id body), (req_action body); try now left.
  destruct (getBigQueryClient env) as [[]|x]; cbn [bind]; [| now right; left].
  destruct (status_query env _) as [rows|x]; cbn [bind]; [| now right; left].
  now right; right.
Qed.

(** C2, amended. The route answers with the client error 400, and writes
    nothing, exactly when the identifier or the action is absent or empty.
    Officer name and notes are not validated: with identifier and action
    present the request is never a client error, and once the status read
    succeeds it is recorded with success, an absent or empty officer name as
    "System User" and absent notes as the empty string, whatever the action.
    The audit panel is what stops blank input: it posts nothing while the
    officer name is blank, nor for NOTE_ADDED while the notes are blank. *)
Theorem POST_validation :
  forall (env : Env) (ledger : Ledger) (body : AuditRequest),
  request_json env = Resolved body ->
  (status (fst (POST env ledger)) = 400
   <-> falsy (req_beneficiary_id body) || falsy (req_action body) = true)
  /\ (status (fst (POST env ledger)) = 400 -> snd (POST env ledger) = ledger)
  /\ (forall b rows,
        falsy (req_beneficiary_id body) || falsy (req_action body) = false ->
        req_beneficiary_id body = Some b ->
        getBigQueryClient env = Resolved tt ->
        status_query env b = Resolved rows ->
        exists e,
          status (fst (POST env ledger)) = 200
          /\ success (fst (POST env ledger)) = true
          /\ audit (fst (POST env ledger)) = Some e
          /\ snd (POST env ledger) = try_insert env ledger e
          /\ officer_name e = opt_or_else (req_officer_name body) (js "System User")
          /\ notes e = opt_or_else (req_notes body) [])
  /\ (forall U props st a,
        forallb is_whitespace (st_officerName st) = true ->
        click U props st a = None)
  /\ (forall U props st,
        forallb is_whitespace (st_notes st) = true ->
        click U props st NOTE_ADDED = None).
Proof.
  intros env ledger body Hj.
  assert (R : falsy (req_beneficiary_id body) || falsy (req_action body) = true ->
              POST env ledger =
              (json_error 400 (js "beneficiary_id and action are required"), ledger))
    by (now apply POST_rejected).
  assert (G : forall b rows,
        falsy (req_beneficiary_id body) || falsy (req_action body) = false ->
        req_beneficiary_id body = Some b ->
        getBigQueryClient env = Resolved tt ->
        status_query env b = Resolved rows ->
        exists e,
          status (fst (POST env ledger)) = 200
          /\ success (fst (POST env ledger)) = true
          /\ audit (fst (POST env ledger)) = Some e
          /\ snd (POST env ledger) = try_insert env ledger e
          /\ officer_name e = opt_or_else (req_officer_name body) (js "System User")
          /\ notes e = opt_or_else (req_notes body) []).
  { intros b rows F Hb Hc Hs. apply orb_false_iff in F. destruct F as [Fb Fa].
    apply not_falsy in Fb, Fa.
    destruct Fb as (b' & Hb' & Nb), Fa as (a & Ha & Na).
    assert (b' = b) by congruence. subst b'.
    rewrite (POST_recorded env ledger body b a rows Hj Hb Nb Ha Na Hc Hs).
    eexists. cbn [fst snd json_recorded status success audit].
    repeat split. }
  split; [split | split; [| split; [exact G | split]]].
  - intros S.
    destruct (falsy (req_beneficiary_id body) || falsy (req_action body)) eqn:F;
      [reflexivity | exfalso].
    now apply (POST_not_client_error env ledger body Hj F).
  - intros F. now rewrite (R F).
  - intros S.
    destruct (falsy (req_beneficiary_id body) || falsy (req_action body)) eqn:F.
    + now rewrite R.
    + exfalso. now apply (POST_not_client_error env ledger body Hj F).
  - intros U props st a W. apply trim_blank in W.
    unfold click, handleAuditAction. rewrite W.
    now destruct (button_disabled st a).
  - intros U props st W. apply trim_blank in W.
    unfold click, button_disabled. rewrite W. cbn [truthy negb].
    now rewrite orb_true_r.
Qed.

Lemma POST_validation_witness :
  exists e,
    status (fst (POST (env_high note_blank) [])) = 200
    /\ success (fst (POST (env_high note_blank) [])) = true
    /\ audit (fst (POST (env_high note_blank) [])) = Some e
    /\ snd (POST (env_high note_blank) []) = try_insert (env_high note_blank) [] e
    /\ officer_name e = opt_or_else (req_officer_name note_blank) (js "System User")
    /\ notes e = opt_or_else (req_notes note_blank) [].
Proof.
  destruct (POST_validation (env_high note_blank) [] note_blank eq_refl)
    as (_ & _ & recorded & _).
  apply (recorded (js "BEN-1") [Some (js "HIGH")]); reflexivity.
Defined.

(** C8. When the status read succeeded and the INSERT fails, [POST] answers
    with status 200 and [success: true], without an error, and carries the
    entry it built; the ledger is left as it was. *)
Theorem POST_insert_failure_is_success :
  forall (env : Env) (ledger : Ledger) (body : AuditRequest)
         (b a : jsstring) (rows : list StatusRow),
  request_json env = Resolved body ->
  req_beneficiary_id body = Some b -> b <> [] ->
  req_action body = Some a -> a <> [] ->
  getBigQueryClient env = Resolved tt ->
  status_query env b = Resolved rows ->
  (forall e, exists x, insert_job env e = Rejected x) ->
  exists e,
    POST env ledger =
      ({| status := 200; success := true; error := None;
          message := Some (js "Action '" ++ a ++ js "' recorded for beneficiary " ++ b);
          audit := Some e |}, ledger)
    /\ audit_id e = uuidv4 env
    /\ beneficiary_id e = b
    /\ action e = a
    /\ officer_id e = opt_or_else (req_officer_id body) (js "SYSTEM")
    /\ officer_name e = opt_or_else (req_officer_name body) (js "System User")
    /\ notes e = opt_or_else (req_notes body) []
    /\ previous_status e = opt_or_else (first_risk_level rows) (js "UNKNOWN")
    /\ new_status e = opt_or_else (req_new_status body) (previous_status e)
    /\ created_at e = now_ISO env.
Proof.
  intros env ledger body b a rows Hj Hb Nb Ha Na Hc Hs Hi.
  rewrite (POST_recorded env ledger body b a rows Hj Hb Nb Ha Na Hc Hs).
  unfold try_insert, json_recorded.
  match goal with |- context [insert_job env ?e] => destruct (Hi e) as (x & ->) end.
  eexists. split; [reflexivity |].
  cbn [audit_id beneficiary_id action officer_id officer_name notes
       previous_status new_status created_at].
  repeat split.
Qed.

Lemma POST_insert_failure_is_success_witness :
  exists e,
    POST (env_no_table cleared_no_status) [] =
      ({| status := 200; success := true; error := None;
          message := Some (js "Action '" ++ js "CLEARED"
                           ++ js "' recorded for beneficiary " ++ js "BEN-1");
          audit := Some e |}, [])
    /\ audit_id e = js "0b0e7a2c-demo"
    /\ beneficiary_id e = js "BEN-1"
    /\ action e = js "CLEARED"
    /\ officer_id e = opt_or_else None (js "SYSTEM")
    /\ officer_name e = opt_or_else (Some (js "Officer A")) (js "System User")
    /\ notes e = opt_or_else (Some []) []
    /\ previous_status e = opt_or_else (first_risk_level [Some (js "MEDIUM")]) (js "UNKNOWN")
    /\ new_status e = opt_or_else None (previous_status e)
    /\ created_at e = js "2025-01-01T00:00:00.000Z".
Proof.
  apply (POST_insert_failure_is_success (env_no_table cleared_no_status) []
           cleared_no_status (js "BEN-1") (js "CLEARED") [Some (js "MEDIUM")]);
    try reflexivity; try discriminate.
  intros e. eexists. reflexivity.
Defined.

End AuditFacts.

(* ================================================================== *)
(** ** The spike query: ordering and the limit *)
(* ================================================================== *)

Module SpikeOrder.

Import Js Spikes.

Local Open Scope nat_scope.

Lemma insert_desc_perm x l : Permutation (insert_desc x l) (x :: l).
Proof.
  induction l as [|y t IH]; simpl; [reflexivity |].
  destruct (ds_anomaly_count y <=? ds_anomaly_count x)%N; [reflexivity |].
  rewrite IH. apply perm_swap.
Qed.

Lemma order_by_count_desc_perm l : Permutation (order_by_count_desc l) l.
Proof.
  induction l as [|x t IH]; simpl; [reflexivity |].
  rewrite insert_desc_perm. now constructor.
Qed.

Lemma insert_desc_sorted x l :
  StronglySorted follows l -> StronglySorted follows (insert_desc x l).
Proof.
  induction 1 as [|y t Ht IH Hy]; simpl.
  - repeat constructor.
  - destruct (ds_anomaly_count y <=? ds_anomaly_count x)%N eqn:E.
    + apply N.leb_le in E. constructor; [now constructor |].
      constructor; [exact E |].
      eapply Forall_impl; [| exact Hy]. unfold follows. intros z Hz. lia.
    + apply N.leb_gt in E. constructor; [exact IH |].
      apply (Permutation_Forall (Permutation_sym (insert_desc_perm x t))).
      constructor; [unfold follows; lia | exact Hy].
Qed.

Lemma order_by_count_desc_sorted l :
  StronglySorted follows (order_by_count_desc l).
Proof.
  induction l as [|x t IH]; simpl; [constructor | now apply insert_desc_sorted].
Qed.

(** Rows already in descending order keep their places: the order among
    equal counts is the one the rows came in. *)
Lemma order_by_count_desc_fixes l :
  StronglySorted follows l -> order_by_count_desc l = l.
Proof.
  induction 1 as [|x t Ht IH Hx]; simpl; [reflexivity |].
  rewrite IH. destruct t as [|y u]; simpl; [reflexivity |].
  inversion Hx as [|? ? Hy _]; subst. unfold follows in Hy.
  apply N.leb_le in Hy. now rewrite Hy.
Qed.

Lemma sorted_app_follows l1 l2 :
  StronglySorted follows (l1 ++ l2) ->
  Forall (fun o => Forall (fun k => follows k o) l1) l2.
Proof.
  induction l1 as [|x t IH]; simpl; intros H.
  - apply Forall_forall. intros; constructor.
  - inversion H as [|? ? Ht Hx]; subst.
    apply Forall_app in Hx. destruct Hx as [_ Hx].
    specialize (IH Ht). rewrite Forall_forall in *.
    intros o Ho. constructor; [now apply Hx | now apply IH].
Qed.

Lemma number_from_length n b l : List.length (number_from n b l) = List.length l.
Proof. revert n. induction l; intros; simpl; [reflexivity | now rewrite IHl]. Qed.

Lemma number_from_firstn k n b l :
  firstn k (number_from n b l) = number_from n b (firstn k l).
Proof.
  revert n l. induction k as [|k IH]; intros n [|x t]; simpl; try reflexivity.
  now rewrite IH.
Qed.

Lemma number_from_counts n b l :
  map row_anomaly_count (number_from n b l) = map ds_anomaly_count l.
Proof. revert n. induction l; intros; simpl; [reflexivity | now rewrite IHl]. Qed.

Lemma number_from_districts n b l :
  map row_affected_districts (number_from n b l) =
  map (fun ds => [residence_district ds]) l.
Proof. revert n. induction l; intros; simpl; [reflexivity | now rewrite IHl]. Qed.


(** The result is the numbered head of the ordered spikes. *)
Lemma query_eq district_stats :
  query district_stats =
  number_from 1 (baseline district_stats)
    (firstn LIMIT (order_by_count_desc
       (filter (where_spike (baseline district_stats)) district_stats))).
Proof. unfold query. apply number_from_firstn. Qed.

(** C10. The listing holds at most 20 groups, the smaller of 20 and the
    number of groups above the threshold.  The groups above the threshold
    split into those returned, in the order of the result, and those omitted,
    and no omitted group has a larger count than a returned one: past 20 the
    groups with the highest counts are kept and the rest are left out, and the
    route answers with exactly these rows. *)
Theorem query_limit :
  forall district_stats : list DistrictStat,
  List.length (query district_stats) <= 20
  /\ List.length (query district_stats) =
       Nat.min 20 (List.length (filter (where_spike (baseline district_stats))
                             district_stats))
  /\ (exists kept omitted : list DistrictStat,
        Permutation (kept ++ omitted)
          (filter (where_spike (baseline district_stats)) district_stats)
        /\ map row_affected_districts (query district_stats) =
             map (fun ds => [residence_district ds]) kept
        /\ map row_anomaly_count (query district_stats) =
             map ds_anomaly_count kept
        /\ (20 < List.length (filter (where_spike (baseline district_stats))
                      district_stats) ->
            List.length kept = 20 /\ omitted <> [])
        /\ Forall (fun o =>
             Forall (fun k => (ds_anomaly_count o <= ds_anomaly_count k)%N) kept)
             omitted)
  /\ GET {| getBigQueryClient := Resolved tt;
            district_stats := Resolved district_stats |} =
       Json (map to_spike (query district_stats)).
Proof.
  intros stats.
  assert (G : GET {| getBigQueryClient := Resolved tt;
                     district_stats := Resolved stats |} =
              Json (map to_spike (query stats))) by reflexivity.
  rewrite G, query_eq.
  set (spikes := filter (where_spike (baseline stats)) stats).
  set (sorted := order_by_count_desc spikes).
  assert (L : List.length sorted = List.length spikes)
    by (apply Permutation_length, order_by_count_desc_perm).
  rewrite number_from_length, length_firstn, L. unfold LIMIT.
  split; [lia |]. split; [reflexivity |]. split; [| reflexivity].
  exists (firstn 20 sorted), (skipn 20 sorted).
  rewrite firstn_skipn, number_from_districts, number_from_counts.
  split; [apply order_by_count_desc_perm |].
  split; [reflexivity |]. split; [reflexivity |]. split.
  - intros H. rewrite length_firstn, L. split; [lia |].
    intros E. apply (f_equal (@List.length _)) in E.
    rewrite length_skipn, L in E. simpl in E. lia.
  - apply sorted_app_follows. rewrite firstn_skipn.
    apply order_by_count_desc_sorted.
Qed.

End SpikeOrder.

(* ================================================================== *)
(** ** The spike query: thresholds, severity and deviation *)
(* ================================================================== *)

Module SpikeFacts.

Import Js Spikes SpikeOrder Examples.

Local Open Scope Q_scope.






























(** Among four groups none can exceed the mean by 1.5 sample standard
    deviations: for A: 10, B: 12, C: 11, D: 100 the mean is 33.25 and the
    threshold just above 100, so that nothing is listed. *)
Example four_groups_list_nothing :
  avg_count (baseline four_groups) = Some (133 # 4)
  /\ std_count_squared (baseline four_groups) = Some (23771 # 12)
  /\ where_spike (baseline four_groups)
       {| residence_district := js "D"; ds_anomaly_count := 100 |} = false
  /\ query four_groups = [].
Proof. vm_compute. repeat split. Qed.


End SpikeFacts.
